(** * LicdataArtifactApp: event translation and routing core

    Shallow embedding of
    [org/acmsl/artifact/licdata/application/licdata_artifact_app.py].

    Python dictionaries are objects on a heap: a variable holds a reference,
    [result[key] = value] updates the object the reference points to.  The
    publish calls ([self.emit]) are recorded in a trace, and the class-level
    [@enable] declarations are part of the state, so that what an acceptor
    changes and what it leaves alone can both be stated. *)

From stdpp Require Import gmap strings list fin_maps pretty.

Local Open Scope string_scope.

(** ** Option values *)

(** The scalars an option mapping carries (CLI flags or a decoded bus
    payload).  Floats are left out. *)
Inductive value :=
  | VNone
  | VStr (s : string)
  | VInt (n : Z)
  | VBool (b : bool).

#[global] Instance value_eq_dec : EqDecision value.
Proof. solve_decision. Defined.

(** What a replacement field [{v}] of an f-string produces:
    [format(v, "")], which is [str(v)] for these types. *)
Definition py_format (v : value) : string :=
  match v with
  | VNone => "None"
  | VStr s => s
  | VInt n => pretty n
  | VBool true => "True"
  | VBool false => "False"
  end.

(** A [dict] with string keys.  Iteration order is not part of the model:
    nothing below depends on it. *)
Abbreviation dict := (gmap string value).

(** References to dictionary objects. *)
Abbreviation loc := positive.
Abbreviation heap := (gmap loc dict).

(** ** The declarative wiring (lines 52-87) *)

(** [dbus_next.BusType]. *)
Inductive BusType := SESSION | SYSTEM.

(** The bus event classes the module imports (lines 39-48). *)
Inductive event_class :=
  | DbusDockerImageAvailable
  | DbusDockerImageRequested
  | DbusDockerImagePushed
  | DbusDockerImagePushRequested
  | DbusCredentialProvided
  | DbusCredentialRequested.

(** The ports the module imports (lines 27-34). *)
Inductive port :=
  | RequestDockerImageCli
  | RequestDockerImagePushedCli
  | LicdataArtifactDbusSignalEmitter
  | LicdataArtifactDbusSignalListener.

#[global] Instance BusType_eq_dec : EqDecision BusType.
Proof. solve_decision. Defined.
#[global] Instance event_class_eq_dec : EqDecision event_class.
Proof. solve_decision. Defined.
#[global] Instance port_eq_dec : EqDecision port.
Proof. solve_decision. Defined.

(** One element of an [events=[...]] list: the dictionary
    [{"event-class": c, "bus-type": b}]. *)
Record event_binding := EventBinding {
  binding_event_class : event_class;
  binding_bus_type : BusType;
}.

#[global] Instance event_binding_eq_dec : EqDecision event_binding.
Proof. solve_decision. Defined.

(** What one [@enable(port, events=...)] records on the class. *)
Abbreviation enabled_port := (port * list event_binding)%type.

(** Modelled from the spec: [enable] comes from [pythoneda.shared.application]
    and is not part of these sources.  Following the spec's routing table
    ("built once at startup from a declarative list"), applying the decorator
    adds the port with its event list to what the class has enabled so far. *)
Definition enable (p : port) (events : list event_binding)
    (cls : list enabled_port) : list enabled_port :=
  (p, events) :: cls.

(** The decorator stack of [LicdataArtifactApp].  Python applies decorators
    bottom-up: the one nearest to [class] first.  Line 86 is commented out in
    the source, so [RequestDockerImagePushedCli] is not enabled. *)
Definition LicdataArtifactApp_enabled : list enabled_port :=
  enable LicdataArtifactDbusSignalListener
    [ EventBinding DbusDockerImageRequested SYSTEM;
      EventBinding DbusDockerImagePushRequested SYSTEM;
      EventBinding DbusCredentialProvided SYSTEM ]
  (enable LicdataArtifactDbusSignalEmitter
    [ EventBinding DbusCredentialRequested SYSTEM;
      EventBinding DbusDockerImageAvailable SYSTEM;
      EventBinding DbusDockerImagePushed SYSTEM ]
  (enable RequestDockerImageCli [] [])).

(** The event list a port was enabled with; nothing when it was not. *)
Definition events_of (p : port) (cls : list enabled_port) : list event_binding :=
  mjoin (snd <$> filter (λ e, e.1 = p) cls).

(** Inbound entries are what the signal listener subscribes to, outbound
    entries what the signal emitter publishes. *)
Definition inbound (cls : list enabled_port) : list event_binding :=
  events_of LicdataArtifactDbusSignalListener cls.
Definition outbound (cls : list enabled_port) : list event_binding :=
  events_of LicdataArtifactDbusSignalEmitter cls.

(** ** Domain request events *)

(** Modelled from the spec: the class [DockerImageRequested] comes from
    [pythoneda.shared.artifact.events] and is not part of these sources.  The
    event is the value of the three constructor arguments of lines 132-136
    ("immutable value carrying derived identity fields ... and the
    Metadata"); the metadata is the reference it was given. *)
Module DockerImageRequested.
Record t := Build {
  image_name : string;
  image_version : value;
  metadata : loc;
}.
End DockerImageRequested.

(** Modelled from the spec: the class [DockerImagePushRequested] comes from
    [pythoneda.shared.artifact.events] and is not part of these sources.  The
    event is the value of the five constructor arguments of lines 157-163. *)
Module DockerImagePushRequested.
Record t := Build {
  image_name : string;
  image_version : value;
  image_url : string;
  docker_registry_url : value;
  metadata : loc;
}.
End DockerImagePushRequested.

(** ** Outcomes and state *)

Inductive exn :=
  | AttributeError
  | HandlerError (msg : string)
  | PublishError (msg : string).

(** A call returns a value or raises. *)
Inductive outcome (A : Type) :=
  | Returned (a : A)
  | Raised (e : exn).
Arguments Returned {A} a.
Arguments Raised {A} e.

Section App.
(** The events the domain handlers return; their classes live in the
    domain and are opaque here. *)
Context {Event : Type}.

Record world := World {
  objects : heap;
  enabled : list enabled_port;
  emitted : list Event;
}.

(** A computation: runs in a state, returns or raises, leaves a state.
    Effects made before a raise stay. *)
Definition M (A : Type) : Type := world → outcome A * world.

#[export] Instance M_ret : MRet M := λ A a w, (Returned a, w).

#[export] Instance M_bind : MBind M := λ A B k c w,
  match c w with
  | (Returned a, w') => k a w'
  | (Raised e, w') => (Raised e, w')
  end.

Definition raise {A} (e : exn) : M A := λ w, (Raised e, w).

Definition set_objects (h : heap) (w : world) : world :=
  World h (enabled w) (emitted w).

(** The dictionary behind a reference; a reference to no dictionary has
    none of the [dict] methods. *)
Definition deref (l : loc) : M dict := λ w,
  match objects w !! l with
  | Some d => (Returned d, w)
  | None => (Raised AttributeError, w)
  end.
End App.

Arguments world : clear implicits.
Arguments M : clear implicits.

(** [d.get(key, None)] on the contents of a dictionary. *)
Definition get_or_none (d : dict) (key : string) : value :=
  default VNone (d !! key).

(** The f-string of lines 130 and 154. *)
Definition image_name_of (variant python_version : value) : string :=
  "licdata-" +:+ py_format variant +:+ "-python" +:+ py_format python_version.

(** The f-string of line 155. *)
Definition image_url_of (docker_registry_url : value) (image_name : string)
    (image_version : value) : string :=
  py_format docker_registry_url +:+ "/" +:+ image_name +:+ ":" +:+
  py_format image_version.

Section Primitives.
Context {Event : Type}.
Local Abbreviation M := (M Event).

(** [{}]: a new, empty dictionary at a reference not in use. *)
Definition new_dict : M loc := λ w,
  let l := fresh (dom (objects w)) in
  (Returned l, set_objects (<[l := ∅]> (objects w)) w).

(** [d.items()], taken when the loop starts. *)
Definition items (l : loc) : M (list (string * value)) :=
  d ← deref l; mret (map_to_list d).

(** [d.get(key, None)]. *)
Definition get (l : loc) (key : string) : M value :=
  d ← deref l; mret (get_or_none d key).

(** Replaces the contents of the object behind [l]. *)
Definition store (l : loc) (d : dict) : M unit := λ w,
  (Returned (), set_objects (<[l := d]> (objects w)) w).

(** [d[key] = v]. *)
Definition setitem (l : loc) (key : string) (v : value) : M unit :=
  d ← deref l; store l (<[key := v]> d).

(** [for x in xs: body(x)]. *)
Fixpoint for_each {A} (xs : list A) (body : A → M unit) : M unit :=
  match xs with
  | [] => mret ()
  | x :: xs' => body x ;; for_each xs' body
  end.

(** The transport behind [emit]: given the publish calls made so far and
    the event of this call, it delivers (the call returns) or fails (the call
    raises). *)
Definition transport : Type := list Event → Event → outcome unit.

(** Modelled from the spec: [emit] is inherited from [PythonEDA] and is not
    part of these sources.  Following the spec's publication contract, a
    call hands the event to the transport and consumes no return value; a
    delivery failure ("publish failure") is raised to the caller.  Every
    call is recorded in the trace, a failed one too. *)
Definition emit (deliver : transport) (e : Event) : M unit := λ w,
  (deliver (emitted w) e,
   World (objects w) (enabled w) (emitted w ++ [e])%list).

(** ** Option Sanitizer (lines 169-183) *)

Definition excluded_keys : list string :=
  ["image_version"; "docker_registry_url"].

Definition _build_docker_image_event_metadata (options : loc) : M loc :=
  result ← new_dict;
  kvs ← items options;
  for_each kvs (λ '(key, value),
    if bool_decide (key ∉ excluded_keys)
    then setitem result key value
    else mret ());;
  mret result.

(** What one turn of the loop of lines 176-181 does to the contents of
    [result], and what the whole loop makes of an empty [result]. *)
Definition keep (acc : dict) (kv : string * value) : dict :=
  if bool_decide (kv.1 ∉ excluded_keys) then <[kv.1 := kv.2]> acc else acc.

Definition copied (options : dict) : dict :=
  foldl keep ∅ (map_to_list options).
End Primitives.

(** ** Event Translator and acceptors (lines 119-167) *)

Section Acceptors.
Context {Event : Type}.
Local Abbreviation M := (M Event).

(** Lines 125-136: from the options to the [DockerImageRequested] that is
    handed to the domain.  [azure_base_version] is read and not used, as in
    the source. *)
Definition translate_image_requested (options : loc)
    : M DockerImageRequested.t :=
  metadata ← _build_docker_image_event_metadata options;
  image_version ← get options "image_version";
  variant ← get options "variant";
  python_version ← get options "python_version";
  azure_base_version ← get options "azure_base_version";
  let image_name := image_name_of variant python_version in
  mret (DockerImageRequested.Build image_name image_version metadata).

(** Lines 148-163: from the options to the [DockerImagePushRequested]. *)
Definition translate_image_push_requested (options : loc)
    : M DockerImagePushRequested.t :=
  metadata ← _build_docker_image_event_metadata options;
  image_version ← get options "image_version";
  docker_registry_url ← get options "docker_registry_url";
  variant ← get options "variant";
  python_version ← get options "python_version";
  azure_base_version ← get options "azure_base_version";
  let image_name := image_name_of variant python_version in
  let image_url := image_url_of docker_registry_url image_name image_version in
  mret (DockerImagePushRequested.Build
          image_name image_version image_url docker_registry_url metadata).

(** The fields of an event other than its metadata. *)
Definition requested_fields (ev : DockerImageRequested.t) : string * value :=
  (DockerImageRequested.image_name ev, DockerImageRequested.image_version ev).

Definition push_requested_fields (ev : DockerImagePushRequested.t)
    : string * value * string * value :=
  (DockerImagePushRequested.image_name ev,
   DockerImagePushRequested.image_version ev,
   DockerImagePushRequested.image_url ev,
   DockerImagePushRequested.docker_registry_url ev).

(** A domain handler is given the event, sees the objects and may change
    them; it returns a sequence of events or raises.  It has no access to
    the application, hence none to the publish trace or the wiring. *)
Definition handler (A : Type) : Type :=
  A → heap → outcome (list Event) * heap.

Definition call_domain {A} (listen : handler A) (ev : A) : M (list Event) :=
  λ w, let '(r, h) := listen ev (objects w) in (r, set_objects h w).

(** The transport the application publishes through. *)
Variable deliver : transport (Event := Event).

(** [LicdataArtifact.listen_DockerImageRequested] and
    [LicdataArtifact.listen_DockerImagePushRequested] live in the domain,
    outside these sources. *)
Variable listen_DockerImageRequested : handler DockerImageRequested.t.
Variable listen_DockerImagePushRequested : handler DockerImagePushRequested.t.

Definition accept_docker_image_requested (options : loc) : M unit :=
  ev ← translate_image_requested options;
  events ← call_domain listen_DockerImageRequested ev;
  for_each events (emit deliver).

Definition accept_docker_image_push_requested (options : loc) : M unit :=
  ev ← translate_image_push_requested options;
  events ← call_domain listen_DockerImagePushRequested ev;
  for_each events (emit deliver).

(** ** The running process *)

(** The state when the class has been defined: the wiring is in place,
    nothing has been delivered. *)
Definition boot : world Event :=
  World ∅ LicdataArtifactApp_enabled [].

(** What happens at run time: the transport (or the CLI) decodes a request
    into a new options dictionary, or one of the two acceptors runs to its
    end, returning or raising. *)
Inductive step : world Event → world Event → Prop :=
  | step_decode w (opts : dict) :
      step w (set_objects (<[fresh (dom (objects w)) := opts]> (objects w)) w)
  | step_image_requested w options r w' :
      accept_docker_image_requested options w = (r, w') →
      step w w'
  | step_image_push_requested w options r w' :
      accept_docker_image_push_requested options w = (r, w') →
      step w w'.

Definition reachable (w : world Event) : Prop := rtc step boot w.

(** A computation that leaves the wiring as it found it, whether it
    returns or raises. *)
Definition keeps_wiring {A} (c : M A) : Prop :=
  ∀ w r w', c w = (r, w') → enabled w' = enabled w.
End Acceptors.


(** ** The inputs of the spec's examples *)

Definition image_requested_example : dict :=
  {[ "variant" := VStr "slim"; "python_version" := VStr "3.12";
     "image_version" := VStr "1.0" ]}.

Definition image_push_requested_example : dict :=
  {[ "variant" := VStr "slim"; "python_version" := VStr "3.12";
     "image_version" := VStr "1.0";
     "docker_registry_url" := VStr "registry.example.com" ]}.

(** A process with one decoded request, the result events being named by
    strings. *)
Definition world_with (opts : dict) : world string :=
  World {[ 1%positive := opts ]} LicdataArtifactApp_enabled [].

(** A transport that delivers every event, and one that cannot deliver the
    event named ["available"]. *)
Definition always_delivers : transport (Event := string) :=
  λ calls e, Returned ().

Definition fails_on_available : transport (Event := string) :=
  λ calls e,
    if bool_decide (e = "available")
    then Raised (PublishError "bus down")
    else Returned ().

(** Two handlers to run the acceptors with: one answers with two events,
    the other has nothing to say. *)
Definition two_results : handler (Event := string) DockerImageRequested.t :=
  λ ev h, (Returned ["available"; "credential"], h).

Definition no_result : handler (Event := string) DockerImagePushRequested.t :=
  λ ev h, (Returned [], h).

(** The process after one image request has been decoded and served. *)
Definition served_once : world string :=
  (accept_docker_image_requested always_delivers two_results 1%positive
     (world_with image_requested_example)).2.

(** Two handlers that fail. *)
Definition failing_requested
    : handler (Event := string) DockerImageRequested.t :=
  λ ev h, (Raised (HandlerError "no builder"), h).

Definition failing_push_requested
    : handler (Event := string) DockerImagePushRequested.t :=
  λ ev h, (Raised (HandlerError "no registry"), h).

(** * Running the primitives *)

Section Running.
Context {Event : Type}.
Implicit Types (w : world Event) (l r : loc) (d opts acc : dict).

Lemma bind_returned {A B} (c : M Event A) (k : A → M Event B) w a w' :
  c w = (Returned a, w') → (c ≫= k) w = k a w'.
Proof. intros Hc. unfold mbind, M_bind. by rewrite Hc. Qed.

Lemma bind_raised {A B} (c : M Event A) (k : A → M Event B) w e w' :
  c w = (Raised e, w') → (c ≫= k) w = (Raised e, w').
Proof. intros Hc. unfold mbind, M_bind. by rewrite Hc. Qed.

Lemma set_objects_id w : set_objects (objects w) w = w.
Proof. by destruct w. Qed.

Lemma set_objects_twice (h h' : heap) w :
  set_objects h (set_objects h' w) = set_objects h w.
Proof. done. Qed.

Lemma deref_live w l d :
  objects w !! l = Some d → deref l w = (Returned d, w).
Proof. intros Hl. unfold deref. by rewrite Hl. Qed.

Lemma items_live w l d :
  objects w !! l = Some d → items l w = (Returned (map_to_list d), w).
Proof. intros Hl. unfold items. by rewrite (bind_returned _ _ _ _ _ (deref_live _ _ _ Hl)). Qed.

Lemma get_live w l d key :
  objects w !! l = Some d →
  get l key w = (Returned (get_or_none d key), w).
Proof. intros Hl. unfold get. by rewrite (bind_returned _ _ _ _ _ (deref_live _ _ _ Hl)). Qed.

Lemma setitem_live w l d key v :
  objects w !! l = Some d →
  setitem l key v w =
    (Returned (), set_objects (<[l := <[key := v]> d]> (objects w)) w).
Proof. intros Hl. unfold setitem. by rewrite (bind_returned _ _ _ _ _ (deref_live _ _ _ Hl)). Qed.

(** The loop of lines 176-181 leaves in [result] the fold of [keep] over
    the items, and touches nothing else. *)
Lemma copy_loop kvs : ∀ w r acc,
  objects w !! r = Some acc →
  for_each kvs (λ '(key, value),
    if bool_decide (key ∉ excluded_keys)
    then setitem r key value
    else mret ()) w
  = (Returned (), set_objects (<[r := foldl keep acc kvs]> (objects w)) w).
Proof.
  induction kvs as [|[k v] kvs IH]; intros w r acc Hr; simpl.
  - by rewrite insert_id, set_objects_id.
  - unfold keep at 2; simpl. case_bool_decide as Hk.
    + erewrite bind_returned by (by apply setitem_live).
      erewrite IH by (simpl; apply lookup_insert_eq).
      simpl. by rewrite set_objects_twice, insert_insert_eq.
    + erewrite bind_returned by reflexivity. by apply IH.
Qed.

Lemma foldl_keep_excluded kvs : ∀ acc k,
  k ∈ excluded_keys → foldl keep acc kvs !! k = acc !! k.
Proof.
  induction kvs as [|[k' v] kvs IH]; intros acc k Hk; simpl; [done|].
  rewrite IH by done. unfold keep; simpl. case_bool_decide; [|done].
  apply lookup_insert_ne. congruence.
Qed.

Lemma foldl_keep_absent kvs : ∀ acc k,
  k ∉ kvs.*1 → foldl keep acc kvs !! k = acc !! k.
Proof.
  induction kvs as [|[k' v] kvs IH]; intros acc k Hk; simpl; [done|].
  simpl in Hk. apply not_elem_of_cons in Hk as [Hne Hk].
  rewrite IH by done. unfold keep; simpl. case_bool_decide; [|done].
  by apply lookup_insert_ne.
Qed.

Lemma foldl_keep_present kvs : ∀ acc k v,
  NoDup kvs.*1 → (k, v) ∈ kvs → k ∉ excluded_keys →
  foldl keep acc kvs !! k = Some v.
Proof.
  induction kvs as [|[k' v'] kvs IH]; intros acc k v Hnd Hin Hk; simpl.
  - by apply elem_of_nil in Hin.
  - simpl in Hnd. apply NoDup_cons in Hnd as [Hfresh Hnd].
    apply elem_of_cons in Hin as [Heq|Hin].
    + injection Heq as <- <-. rewrite foldl_keep_absent by done.
      unfold keep; simpl. rewrite bool_decide_true by done.
      apply lookup_insert_eq.
    + by apply IH.
Qed.

(** The metadata contents, key by key. *)
Lemma copied_lookup opts k :
  copied opts !! k = if bool_decide (k ∈ excluded_keys) then None else opts !! k.
Proof.
  unfold copied. case_bool_decide as Hk.
  - by rewrite foldl_keep_excluded.
  - destruct (opts !! k) as [v|] eqn:Hv.
    + apply foldl_keep_present; [apply NoDup_fst_map_to_list| |done].
      by apply elem_of_map_to_list.
    + rewrite foldl_keep_absent; [done|].
      intros Hin. apply not_elem_of_dom in Hv. apply Hv.
      apply elem_of_dom. apply list_elem_of_fmap in Hin as [[k' v] [-> Hin]].
      apply elem_of_map_to_list in Hin. by exists v.
Qed.

Lemma excluded_keys_spec k :
  k ∈ excluded_keys ↔ k = "image_version" ∨ k = "docker_registry_url".
Proof.
  unfold excluded_keys. rewrite !elem_of_cons, elem_of_nil. tauto.
Qed.

Lemma copied_dom opts :
  dom (copied opts) = dom opts ∖ {["image_version"; "docker_registry_url"]}.
Proof.
  apply set_eq. intros k.
  rewrite elem_of_difference, !elem_of_dom, copied_lookup.
  rewrite elem_of_union, !elem_of_singleton.
  case_bool_decide as Hk; rewrite excluded_keys_spec in Hk.
  - split; [by intros [? ?]|]. intros [_ Hn]. tauto.
  - split; [|by intros [? _]]. intros Hs. split; [done|]. tauto.
Qed.

Lemma copied_empty : copied ∅ = ∅.
Proof. unfold copied. by rewrite map_to_list_empty. Qed.

(** A reference in use is not the next one handed out. *)
Lemma live_not_fresh (h : heap) l d : h !! l = Some d → l ≠ fresh (dom h).
Proof.
  intros Hl ->. apply (is_fresh (dom h)). apply elem_of_dom. by exists d.
Qed.

Lemma fresh_not_live (h : heap) : h !! fresh (dom h) = None.
Proof. apply not_elem_of_dom. apply is_fresh. Qed.

(** The sanitizer, run on a live dictionary. *)
Lemma build_metadata_run w options opts :
  objects w !! options = Some opts →
  _build_docker_image_event_metadata options w =
    (Returned (fresh (dom (objects w))),
     set_objects (<[fresh (dom (objects w)) := copied opts]> (objects w)) w).
Proof.
  intros Hl. unfold _build_docker_image_event_metadata.
  set (r := fresh (dom (objects w))).
  assert (Hne : r ≠ options) by (symmetry; by eapply live_not_fresh).
  erewrite (bind_returned new_dict) by reflexivity. fold r.
  erewrite bind_returned
    by (apply items_live; simpl; rewrite lookup_insert_ne; done).
  erewrite bind_returned by (apply copy_loop; simpl; apply lookup_insert_eq).
  simpl. by rewrite insert_insert_eq.
Qed.
End Running.

(** * Running the translators *)

Section Translating.
Context {Event : Type}.
Implicit Types (w : world Event) (l r : loc) (d opts : dict).

Lemma translate_image_requested_run w options opts :
  objects w !! options = Some opts →
  translate_image_requested options w =
    (Returned (DockerImageRequested.Build
       (image_name_of (get_or_none opts "variant")
                      (get_or_none opts "python_version"))
       (get_or_none opts "image_version")
       (fresh (dom (objects w)))),
     set_objects (<[fresh (dom (objects w)) := copied opts]> (objects w)) w).
Proof.
  intros Hl. unfold translate_image_requested.
  erewrite bind_returned by (by apply build_metadata_run).
  assert (Hl' : objects (set_objects
      (<[fresh (dom (objects w)) := copied opts]> (objects w)) w) !! options
      = Some opts).
  { simpl. rewrite lookup_insert_ne; [done|].
    symmetry. by eapply live_not_fresh. }
  do 4 (erewrite bind_returned by (by apply get_live)).
  reflexivity.
Qed.

Lemma translate_image_push_requested_run w options opts :
  objects w !! options = Some opts →
  translate_image_push_requested options w =
    (Returned (DockerImagePushRequested.Build
       (image_name_of (get_or_none opts "variant")
                      (get_or_none opts "python_version"))
       (get_or_none opts "image_version")
       (image_url_of (get_or_none opts "docker_registry_url")
          (image_name_of (get_or_none opts "variant")
                         (get_or_none opts "python_version"))
          (get_or_none opts "image_version"))
       (get_or_none opts "docker_registry_url")
       (fresh (dom (objects w)))),
     set_objects (<[fresh (dom (objects w)) := copied opts]> (objects w)) w).
Proof.
  intros Hl. unfold translate_image_push_requested.
  erewrite bind_returned by (by apply build_metadata_run).
  assert (Hl' : objects (set_objects
      (<[fresh (dom (objects w)) := copied opts]> (objects w)) w) !! options
      = Some opts).
  { simpl. rewrite lookup_insert_ne; [done|].
    symmetry. by eapply live_not_fresh. }
  do 5 (erewrite bind_returned by (by apply get_live)).
  reflexivity.
Qed.

(** ** The claims about the sanitizer *)

(** C1.  Run on any options dictionary, [_build_docker_image_event_metadata]
    returns a dictionary whose keys are the keys of the options without
    ["image_version"] and ["docker_registry_url"], each bound to the value
    the options bind it to; from empty options it returns an empty
    dictionary. *)
Theorem metadata_keys_are_options_minus_excluded w options opts :
  objects w !! options = Some opts →
  ∃ result w' md,
    _build_docker_image_event_metadata options w = (Returned result, w') ∧
    objects w' !! result = Some md ∧
    dom md = dom opts ∖ {["image_version"; "docker_registry_url"]} ∧
    (∀ k, k ∈ dom md → md !! k = opts !! k) ∧
    (opts = ∅ → md = ∅).
Proof.
  intros Hl. rewrite (build_metadata_run _ _ _ Hl).
  eexists _, _, (copied opts). split; [reflexivity|].
  split; [simpl; apply lookup_insert_eq|].
  split; [apply copied_dom|]. split.
  - intros k Hk. apply elem_of_dom in Hk as [v Hv].
    rewrite copied_lookup in Hv |- *. by case_bool_decide.
  - intros ->. apply copied_empty.
Qed.

(** C8.  [_build_docker_image_event_metadata] leaves the options as they
    were: after the call the options reference holds the same dictionary,
    the result is a reference that was not in use before (so it is not the
    options), no other object has changed, and neither the wiring nor the
    publish trace has. *)
Theorem metadata_construction_has_no_side_effect w options opts :
  objects w !! options = Some opts →
  ∃ result w',
    _build_docker_image_event_metadata options w = (Returned result, w') ∧
    objects w' !! options = Some opts ∧
    result ≠ options ∧
    objects w !! result = None ∧
    (∀ l, l ≠ result → objects w' !! l = objects w !! l) ∧
    enabled w' = enabled w ∧
    emitted w' = emitted w.
Proof.
  intros Hl. rewrite (build_metadata_run _ _ _ Hl).
  assert (Hne : fresh (dom (objects w)) ≠ options)
    by (symmetry; by eapply live_not_fresh).
  eexists _, _. split; [reflexivity|]. simpl.
  split; [by rewrite lookup_insert_ne|].
  split; [done|]. split; [apply fresh_not_live|].
  split; [|done]. intros l Hl'. by rewrite lookup_insert_ne.
Qed.

(** ** The claims about the translators *)

(** C2.  From any options dictionary the image-requested translation
    builds an event whose version is the ["image_version"] option ([None]
    when the key is absent), whose name is ["licdata-"], the variant,
    ["-python"] and the Python version (plain concatenation when both are
    strings), and whose metadata is what
    [_build_docker_image_event_metadata] returns for these options.  For
    the options of the spec's example the name is
    ["licdata-slim-python3.12"], the version ["1.0"], and the metadata has
    no ["image_version"]. *)
Theorem translate_image_requested_correct w options opts :
  objects w !! options = Some opts →
  ∃ ev w' md,
    translate_image_requested options w = (Returned ev, w') ∧
    DockerImageRequested.image_version ev
      = default VNone (opts !! "image_version") ∧
    DockerImageRequested.image_name ev
      = "licdata-" +:+ py_format (default VNone (opts !! "variant")) +:+
        "-python" +:+ py_format (default VNone (opts !! "python_version")) ∧
    (∀ variant python_version,
       opts !! "variant" = Some (VStr variant) →
       opts !! "python_version" = Some (VStr python_version) →
       DockerImageRequested.image_name ev
         = "licdata-" +:+ variant +:+ "-python" +:+ python_version) ∧
    _build_docker_image_event_metadata options w
      = (Returned (DockerImageRequested.metadata ev), w') ∧
    objects w' !! DockerImageRequested.metadata ev = Some md ∧
    dom md = dom opts ∖ {["image_version"; "docker_registry_url"]} ∧
    (∀ k, k ∈ dom md → md !! k = opts !! k) ∧
    (opts = image_requested_example →
       DockerImageRequested.image_name ev = "licdata-slim-python3.12" ∧
       DockerImageRequested.image_version ev = VStr "1.0" ∧
       md !! "image_version" = None).
Proof.
  intros Hl. rewrite (translate_image_requested_run _ _ _ Hl).
  rewrite (build_metadata_run _ _ _ Hl).
  eexists _, _, (copied opts). split; [reflexivity|]. simpl.
  split; [done|]. split; [done|]. split.
  { intros variant python_version Hv Hp.
    unfold image_name_of, get_or_none. by rewrite Hv, Hp. }
  split; [done|]. split; [apply lookup_insert_eq|].
  split; [apply copied_dom|]. split.
  - intros k Hk. apply elem_of_dom in Hk as [v Hv].
    rewrite copied_lookup in Hv |- *. by case_bool_decide.
  - intros ->. split; [reflexivity|]. split; [reflexivity|].
    by rewrite copied_lookup.
Qed.

(** C3.  The image-push-requested translation derives name and version as
    the image-requested translation does, builds the URL from the registry
    URL, ["/"], the name, [":"] and the version, passes the registry URL
    on, and takes its metadata from [_build_docker_image_event_metadata].
    For the options of the spec's example the URL is
    ["registry.example.com/licdata-slim-python3.12:1.0"] and the metadata
    has neither ["image_version"] nor ["docker_registry_url"]. *)
Theorem translate_image_push_requested_correct w options opts :
  objects w !! options = Some opts →
  ∃ ev w' md,
    translate_image_push_requested options w = (Returned ev, w') ∧
    (∃ ev0 w0, translate_image_requested options w = (Returned ev0, w0) ∧
       DockerImagePushRequested.image_name ev
         = DockerImageRequested.image_name ev0 ∧
       DockerImagePushRequested.image_version ev
         = DockerImageRequested.image_version ev0) ∧
    DockerImagePushRequested.docker_registry_url ev
      = default VNone (opts !! "docker_registry_url") ∧
    DockerImagePushRequested.image_url ev
      = py_format (DockerImagePushRequested.docker_registry_url ev) +:+ "/"
        +:+ DockerImagePushRequested.image_name ev +:+ ":"
        +:+ py_format (DockerImagePushRequested.image_version ev) ∧
    (∀ url version,
       opts !! "docker_registry_url" = Some (VStr url) →
       opts !! "image_version" = Some (VStr version) →
       DockerImagePushRequested.image_url ev
         = url +:+ "/" +:+ DockerImagePushRequested.image_name ev +:+ ":"
           +:+ version) ∧
    _build_docker_image_event_metadata options w
      = (Returned (DockerImagePushRequested.metadata ev), w') ∧
    objects w' !! DockerImagePushRequested.metadata ev = Some md ∧
    dom md = dom opts ∖ {["image_version"; "docker_registry_url"]} ∧
    (∀ k, k ∈ dom md → md !! k = opts !! k) ∧
    (opts = image_push_requested_example →
       DockerImagePushRequested.image_url ev
         = "registry.example.com/licdata-slim-python3.12:1.0" ∧
       md !! "image_version" = None ∧
       md !! "docker_registry_url" = None).
Proof.
  intros Hl. rewrite (translate_image_push_requested_run _ _ _ Hl).
  rewrite (translate_image_requested_run _ _ _ Hl).
  rewrite (build_metadata_run _ _ _ Hl).
  eexists _, _, (copied opts). split; [reflexivity|]. simpl.
  split; [by eexists _, _|]. split; [done|]. split; [done|]. split.
  { intros url version Hu Hv.
    unfold image_url_of, get_or_none. by rewrite Hu, Hv. }
  split; [done|]. split; [apply lookup_insert_eq|].
  split; [apply copied_dom|]. split.
  - intros k Hk. apply elem_of_dom in Hk as [v Hv].
    rewrite copied_lookup in Hv |- *. by case_bool_decide.
  - intros ->. split; [reflexivity|]. by rewrite !copied_lookup.
Qed.

(** C6.  On any options dictionary both translations return an event: none
    raises, whichever of ["variant"], ["python_version"], ["image_version"]
    and ["docker_registry_url"] is missing.  A missing key contributes
    [None]: as the event's field, and formatted in the derived name and
    URL. *)
Theorem translation_raises_no_error w options opts :
  objects w !! options = Some opts →
  (∃ ev w',
     translate_image_requested options w = (Returned ev, w') ∧
     (opts !! "variant" = None →
        DockerImageRequested.image_name ev
          = "licdata-" +:+ py_format VNone +:+ "-python" +:+
            py_format (get_or_none opts "python_version")) ∧
     (opts !! "python_version" = None →
        DockerImageRequested.image_name ev
          = "licdata-" +:+ py_format (get_or_none opts "variant") +:+
            "-python" +:+ py_format VNone) ∧
     (opts !! "image_version" = None →
        DockerImageRequested.image_version ev = VNone)) ∧
  (∃ ev w',
     translate_image_push_requested options w = (Returned ev, w') ∧
     (opts !! "variant" = None →
        DockerImagePushRequested.image_name ev
          = "licdata-" +:+ py_format VNone +:+ "-python" +:+
            py_format (get_or_none opts "python_version")) ∧
     (opts !! "python_version" = None →
        DockerImagePushRequested.image_name ev
          = "licdata-" +:+ py_format (get_or_none opts "variant") +:+
            "-python" +:+ py_format VNone) ∧
     (opts !! "image_version" = None →
        DockerImagePushRequested.image_version ev = VNone ∧
        DockerImagePushRequested.image_url ev
          = py_format (DockerImagePushRequested.docker_registry_url ev) +:+
            "/" +:+ DockerImagePushRequested.image_name ev +:+ ":" +:+
            py_format VNone) ∧
     (opts !! "docker_registry_url" = None →
        DockerImagePushRequested.docker_registry_url ev = VNone ∧
        DockerImagePushRequested.image_url ev
          = py_format VNone +:+ "/" +:+
            DockerImagePushRequested.image_name ev +:+ ":" +:+
            py_format (DockerImagePushRequested.image_version ev))).
Proof.
  intros Hl. split.
  - rewrite (translate_image_requested_run _ _ _ Hl).
    eexists _, _. split; [reflexivity|]. simpl.
    unfold image_name_of, get_or_none.
    split_and!; intros Hk; by rewrite Hk.
  - rewrite (translate_image_push_requested_run _ _ _ Hl).
    eexists _, _. split; [reflexivity|]. simpl.
    unfold image_url_of, image_name_of, get_or_none.
    split_and!; intros Hk; by rewrite Hk.
Qed.

(** C9.  The placeholder is Python's [str(None)]: without ["variant"] and
    ["python_version"] the name is ["licdata-None-pythonNone"], for both
    translations; without ["docker_registry_url"] and ["image_version"] as
    well, the URL of a push request is
    ["None/licdata-None-pythonNone:None"]. *)
Theorem missing_options_are_formatted_as_None w options opts :
  objects w !! options = Some opts →
  opts !! "variant" = None →
  opts !! "python_version" = None →
  (∃ ev w',
     translate_image_requested options w = (Returned ev, w') ∧
     DockerImageRequested.image_name ev = "licdata-None-pythonNone") ∧
  (∃ ev w',
     translate_image_push_requested options w = (Returned ev, w') ∧
     DockerImagePushRequested.image_name ev = "licdata-None-pythonNone" ∧
     (opts !! "docker_registry_url" = None →
      opts !! "image_version" = None →
      DockerImagePushRequested.image_url ev
        = "None/licdata-None-pythonNone:None")).
Proof.
  intros Hl Hv Hp. split.
  - rewrite (translate_image_requested_run _ _ _ Hl).
    eexists _, _. split; [reflexivity|]. simpl.
    unfold get_or_none. by rewrite Hv, Hp.
  - rewrite (translate_image_push_requested_run _ _ _ Hl).
    eexists _, _. split; [reflexivity|]. simpl.
    unfold get_or_none. rewrite Hv, Hp. split; [done|].
    intros Hu Hi. by rewrite Hu, Hi.
Qed.

(** C7.  Translating the same options twice, one run after the other,
    gives structurally equal events: equal names, versions, URLs and
    registry URLs, and metadata dictionaries with equal contents.  Only the
    identity of the two metadata objects differs. *)
Theorem translating_twice_gives_equal_events w options opts :
  objects w !! options = Some opts →
  (∃ ev1 w1 ev2 w2 md,
     translate_image_requested options w = (Returned ev1, w1) ∧
     translate_image_requested options w1 = (Returned ev2, w2) ∧
     requested_fields ev1 = requested_fields ev2 ∧
     objects w2 !! DockerImageRequested.metadata ev1 = Some md ∧
     objects w2 !! DockerImageRequested.metadata ev2 = Some md ∧
     DockerImageRequested.metadata ev1 ≠ DockerImageRequested.metadata ev2) ∧
  (∃ ev1 w1 ev2 w2 md,
     translate_image_push_requested options w = (Returned ev1, w1) ∧
     translate_image_push_requested options w1 = (Returned ev2, w2) ∧
     push_requested_fields ev1 = push_requested_fields ev2 ∧
     objects w2 !! DockerImagePushRequested.metadata ev1 = Some md ∧
     objects w2 !! DockerImagePushRequested.metadata ev2 = Some md ∧
     DockerImagePushRequested.metadata ev1
       ≠ DockerImagePushRequested.metadata ev2).
Proof.
  intros Hl.
  set (r1 := fresh (dom (objects w))).
  set (w1 := set_objects (<[r1 := copied opts]> (objects w)) w).
  assert (Hl1 : objects w1 !! options = Some opts).
  { simpl. rewrite lookup_insert_ne; [done|].
    symmetry. by eapply live_not_fresh. }
  assert (Hr1 : objects w1 !! r1 = Some (copied opts))
    by (simpl; apply lookup_insert_eq).
  assert (Hne : r1 ≠ fresh (dom (objects w1))) by by eapply live_not_fresh.
  split.
  - eexists _, w1, _, _, (copied opts).
    split; [exact (translate_image_requested_run _ _ _ Hl)|].
    split; [exact (translate_image_requested_run _ _ _ Hl1)|].
    split; [reflexivity|]. simpl.
    split; [by rewrite lookup_insert_ne|].
    split; [apply lookup_insert_eq|done].
  - eexists _, w1, _, _, (copied opts).
    split; [exact (translate_image_push_requested_run _ _ _ Hl)|].
    split; [exact (translate_image_push_requested_run _ _ _ Hl1)|].
    split; [reflexivity|]. simpl.
    split; [by rewrite lookup_insert_ne|].
    split; [apply lookup_insert_eq|done].
Qed.

(** C10.  The fields of the event outside its metadata depend on the four
    options ["variant"], ["python_version"], ["image_version"] and
    ["docker_registry_url"] only: two option dictionaries that agree on
    these give events with equal name, version, URL and registry URL,
    whatever else differs, ["azure_base_version"] included.  That option
    reaches the event in the metadata, with the value the options give
    it. *)
Theorem identity_fields_depend_on_four_options
    (w1 w2 : world Event) options1 options2 opts1 opts2 :
  objects w1 !! options1 = Some opts1 →
  objects w2 !! options2 = Some opts2 →
  opts1 !! "variant" = opts2 !! "variant" →
  opts1 !! "python_version" = opts2 !! "python_version" →
  opts1 !! "image_version" = opts2 !! "image_version" →
  opts1 !! "docker_registry_url" = opts2 !! "docker_registry_url" →
  (∃ ev1 w1' ev2 w2' md1,
     translate_image_requested options1 w1 = (Returned ev1, w1') ∧
     translate_image_requested options2 w2 = (Returned ev2, w2') ∧
     requested_fields ev1 = requested_fields ev2 ∧
     objects w1' !! DockerImageRequested.metadata ev1 = Some md1 ∧
     md1 !! "azure_base_version" = opts1 !! "azure_base_version") ∧
  (∃ ev1 w1' ev2 w2' md1,
     translate_image_push_requested options1 w1 = (Returned ev1, w1') ∧
     translate_image_push_requested options2 w2 = (Returned ev2, w2') ∧
     push_requested_fields ev1 = push_requested_fields ev2 ∧
     objects w1' !! DockerImagePushRequested.metadata ev1 = Some md1 ∧
     md1 !! "azure_base_version" = opts1 !! "azure_base_version").
Proof.
  intros Hl1 Hl2 Hv Hp Hi Hu. split.
  - rewrite (translate_image_requested_run _ _ _ Hl1).
    rewrite (translate_image_requested_run _ _ _ Hl2).
    eexists _, _, _, _, (copied opts1). do 2 (split; [reflexivity|]).
    split; [|split; [simpl; apply lookup_insert_eq|by rewrite copied_lookup]].
    unfold requested_fields, get_or_none; simpl. by rewrite Hv, Hp, Hi.
  - rewrite (translate_image_push_requested_run _ _ _ Hl1).
    rewrite (translate_image_push_requested_run _ _ _ Hl2).
    eexists _, _, _, _, (copied opts1). do 2 (split; [reflexivity|]).
    split; [|split; [simpl; apply lookup_insert_eq|by rewrite copied_lookup]].
    unfold push_requested_fields, get_or_none; simpl.
    by rewrite Hv, Hp, Hi, Hu.
Qed.
End Translating.

(** * Running the acceptors *)

Create HintDb wiring.

Section Routing.
Context {Event : Type}.
Variable deliver : transport (Event := Event).
Variable listen_DockerImageRequested : handler (Event := Event) DockerImageRequested.t.
Variable listen_DockerImagePushRequested : handler (Event := Event) DockerImagePushRequested.t.
Implicit Types (w : world Event) (l r : loc) (d opts : dict).

Local Abbreviation accept_requested :=
  (accept_docker_image_requested deliver listen_DockerImageRequested).
Local Abbreviation accept_push_requested :=
  (accept_docker_image_push_requested deliver listen_DockerImagePushRequested).

Lemma emit_run (e : Event) w :
  emit deliver e w
  = (deliver (emitted w) e,
     World (objects w) (enabled w) (emitted w ++ [e])%list).
Proof. reflexivity. Qed.

(** The loop of lines 139-140 and 166-167, when the transport delivers each
    event in its turn: every event is published, first to last. *)
Lemma for_each_emit_delivered (evs : list Event) : ∀ w,
  (∀ i e, evs !! i = Some e →
          deliver (emitted w ++ take i evs)%list e = Returned ()) →
  for_each evs (emit deliver) w
  = (Returned (), World (objects w) (enabled w) (emitted w ++ evs)%list).
Proof.
  induction evs as [|e0 evs IH]; intros w Hall; simpl.
  - rewrite app_nil_r. by destruct w.
  - assert (H0 : deliver (emitted w) e0 = Returned ()).
    { specialize (Hall 0 e0 eq_refl). simpl in Hall.
      by rewrite app_nil_r in Hall. }
    erewrite bind_returned by (rewrite emit_run, H0; reflexivity).
    rewrite IH.
    + simpl. by rewrite <- app_assoc.
    + intros i e Hi. simpl. rewrite <- app_assoc. exact (Hall (S i) e Hi).
Qed.

(** The same loop, when the transport fails on the event at index [i] and
    not before: the events up to that one are published, the rest are not,
    and the exception leaves the loop. *)
Lemma for_each_emit_failed (evs : list Event) : ∀ w i e x,
  evs !! i = Some e →
  deliver (emitted w ++ take i evs)%list e = Raised x →
  (∀ j e', j < i → evs !! j = Some e' →
           deliver (emitted w ++ take j evs)%list e' = Returned ()) →
  for_each evs (emit deliver) w
  = (Raised x,
     World (objects w) (enabled w) (emitted w ++ take (S i) evs)%list).
Proof.
  induction evs as [|e0 evs IH]; intros w i e x Hi Hfail Hbefore; [done|].
  simpl. destruct i as [|i].
  - injection Hi as ->. simpl in Hfail. rewrite app_nil_r in Hfail.
    erewrite bind_raised by (rewrite emit_run, Hfail; reflexivity).
    by rewrite take_0.
  - assert (H0 : deliver (emitted w) e0 = Returned ()).
    { specialize (Hbefore 0 e0 ltac:(lia) eq_refl). simpl in Hbefore.
      by rewrite app_nil_r in Hbefore. }
    erewrite bind_returned by (rewrite emit_run, H0; reflexivity).
    rewrite (IH _ i e x Hi).
    + simpl. by rewrite <- app_assoc.
    + simpl. rewrite <- app_assoc. exact Hfail.
    + intros j e' Hj Hj'. simpl. rewrite <- app_assoc.
      apply (Hbefore (S j) e'); [lia|exact Hj'].
Qed.


Lemma call_domain_returned {A} (listen : handler A) (ev : A) w evs h :
  listen ev (objects w) = (Returned evs, h) →
  call_domain listen ev w = (Returned evs, set_objects h w).
Proof. intros Hh. unfold call_domain. by rewrite Hh. Qed.

(** ** Nothing at run time writes the wiring *)

Lemma keeps_wiring_ret {A} (a : A) : keeps_wiring (Event := Event) (mret a).
Proof. intros w r w' [= <- <-]. done. Qed.

Lemma keeps_wiring_bind {A B} (c : M Event A) (k : A → M Event B) :
  keeps_wiring c → (∀ a, keeps_wiring (k a)) → keeps_wiring (c ≫= k).
Proof.
  intros Hc Hk w r w'. unfold mbind, M_bind.
  destruct (c w) as [[a|e] w1] eqn:Hcw.
  - intros Hka. rewrite (Hk a _ _ _ Hka). by eapply Hc.
  - intros [= <- <-]. by eapply Hc.
Qed.

Lemma keeps_wiring_deref l : keeps_wiring (Event := Event) (deref l).
Proof.
  intros w r w'. unfold deref.
  destruct (objects w !! l); by intros [= <- <-].
Qed.

Lemma keeps_wiring_new_dict : keeps_wiring (Event := Event) new_dict.
Proof. intros w r w' [= <- <-]. done. Qed.

Lemma keeps_wiring_store l d : keeps_wiring (Event := Event) (store l d).
Proof. intros w r w' [= <- <-]. done. Qed.

Lemma keeps_wiring_emit (e : Event) : keeps_wiring (emit deliver e).
Proof. intros w r w' [= <- <-]. done. Qed.

Lemma keeps_wiring_call_domain {A} (listen : handler A) (ev : A) :
  keeps_wiring (Event := Event) (call_domain listen ev).
Proof.
  intros w r w'. unfold call_domain.
  destruct (listen ev (objects w)) as [r0 h]. by intros [= <- <-].
Qed.

Lemma keeps_wiring_for_each {A} (xs : list A) (body : A → M Event unit) :
  (∀ x, keeps_wiring (body x)) → keeps_wiring (for_each xs body).
Proof.
  intros Hbody. induction xs as [|x xs IH]; simpl.
  - apply keeps_wiring_ret.
  - apply keeps_wiring_bind; [apply Hbody|by intros _].
Qed.

Hint Resolve keeps_wiring_ret keeps_wiring_bind keeps_wiring_deref
  keeps_wiring_new_dict keeps_wiring_store keeps_wiring_emit
  keeps_wiring_call_domain keeps_wiring_for_each : wiring.

Lemma keeps_wiring_get l key : keeps_wiring (Event := Event) (get l key).
Proof. unfold get. auto with wiring. Qed.

Lemma keeps_wiring_items l : keeps_wiring (Event := Event) (items l).
Proof. unfold items. auto with wiring. Qed.

Lemma keeps_wiring_setitem l key v :
  keeps_wiring (Event := Event) (setitem l key v).
Proof. unfold setitem. auto with wiring. Qed.

Hint Resolve keeps_wiring_get keeps_wiring_items keeps_wiring_setitem
  : wiring.

Lemma keeps_wiring_build_metadata options :
  keeps_wiring (Event := Event) (_build_docker_image_event_metadata options).
Proof.
  unfold _build_docker_image_event_metadata.
  apply keeps_wiring_bind; [auto with wiring|]. intros result.
  apply keeps_wiring_bind; [auto with wiring|]. intros kvs.
  apply keeps_wiring_bind; [|auto with wiring].
  apply keeps_wiring_for_each. intros [key value].
  case_bool_decide; auto with wiring.
Qed.

Hint Resolve keeps_wiring_build_metadata : wiring.

Lemma keeps_wiring_translate_image_requested options :
  keeps_wiring (Event := Event) (translate_image_requested options).
Proof. unfold translate_image_requested. auto 10 with wiring. Qed.

Lemma keeps_wiring_translate_image_push_requested options :
  keeps_wiring (Event := Event) (translate_image_push_requested options).
Proof. unfold translate_image_push_requested. auto 12 with wiring. Qed.

Hint Resolve keeps_wiring_translate_image_requested
  keeps_wiring_translate_image_push_requested : wiring.

Lemma keeps_wiring_accept_requested options :
  keeps_wiring (accept_requested options).
Proof. unfold accept_docker_image_requested. auto with wiring. Qed.

Lemma keeps_wiring_accept_push_requested options :
  keeps_wiring (accept_push_requested options).
Proof. unfold accept_docker_image_push_requested. auto with wiring. Qed.

Lemma step_keeps_wiring w w' :
  step deliver listen_DockerImageRequested listen_DockerImagePushRequested
    w w' →
  enabled w' = enabled w.
Proof.
  intros [w0 opts|w0 options r w1 Hrun|w0 options r w1 Hrun].
  - done.
  - by eapply keeps_wiring_accept_requested.
  - by eapply keeps_wiring_accept_push_requested.
Qed.

Lemma reachable_wiring w :
  reachable deliver listen_DockerImageRequested
    listen_DockerImagePushRequested w →
  enabled w = LicdataArtifactApp_enabled.
Proof.
  unfold reachable. revert w.
  apply (rtc_ind_r (λ w, enabled w = LicdataArtifactApp_enabled)); [done|].
  intros w1 w2 _ Hstep IH. by rewrite (step_keeps_wiring _ _ Hstep).
Qed.

(** ** The claims about routing *)

(** C4.  When the domain handler returns a sequence of events, the
    acceptor makes its [emit] calls in the order of the sequence.  If no
    call fails, there is exactly one call for each event and the acceptor
    returns: the publish trace grows by that sequence, by nothing for an
    empty one.  If the call for the event at index [i] is the first to fail,
    the trace grows by the events up to and including that one, the later
    events are not published, and the acceptor raises the transport's
    exception.  This holds for both acceptors. *)
Theorem results_are_published_in_order_until_a_publish_fails
    w options opts :
  objects w !! options = Some opts →
  (∃ ev w1,
     translate_image_requested options w = (Returned ev, w1) ∧
     ∀ evs h,
       listen_DockerImageRequested ev (objects w1) = (Returned evs, h) →
       ((∀ i e, evs !! i = Some e →
                deliver (emitted w ++ take i evs)%list e = Returned ()) →
        ∃ w',
          accept_requested options w = (Returned (), w') ∧
          emitted w' = (emitted w ++ evs)%list ∧
          length (emitted w') = length (emitted w) + length evs ∧
          (evs = [] → emitted w' = emitted w)) ∧
       (∀ i e x,
          evs !! i = Some e →
          deliver (emitted w ++ take i evs)%list e = Raised x →
          (∀ j e', j < i → evs !! j = Some e' →
                   deliver (emitted w ++ take j evs)%list e' = Returned ()) →
          ∃ w',
            accept_requested options w = (Raised x, w') ∧
            emitted w' = (emitted w ++ take (S i) evs)%list)) ∧
  (∃ ev w1,
     translate_image_push_requested options w = (Returned ev, w1) ∧
     ∀ evs h,
       listen_DockerImagePushRequested ev (objects w1) = (Returned evs, h) →
       ((∀ i e, evs !! i = Some e →
                deliver (emitted w ++ take i evs)%list e = Returned ()) →
        ∃ w',
          accept_push_requested options w = (Returned (), w') ∧
          emitted w' = (emitted w ++ evs)%list ∧
          length (emitted w') = length (emitted w) + length evs ∧
          (evs = [] → emitted w' = emitted w)) ∧
       (∀ i e x,
          evs !! i = Some e →
          deliver (emitted w ++ take i evs)%list e = Raised x →
          (∀ j e', j < i → evs !! j = Some e' →
                   deliver (emitted w ++ take j evs)%list e' = Returned ()) →
          ∃ w',
            accept_push_requested options w = (Raised x, w') ∧
            emitted w' = (emitted w ++ take (S i) evs)%list)).
Proof.
  intros Hl. split.
  - eexists _, _. split; [exact (translate_image_requested_run _ _ _ Hl)|].
    intros evs h Hh. unfold accept_docker_image_requested.
    erewrite bind_returned by exact (translate_image_requested_run _ _ _ Hl).
    erewrite bind_returned by exact (call_domain_returned _ _ _ _ _ Hh).
    change (set_objects h _) with (World h (enabled w) (emitted w)).
    split.
    + intros Hall.
      rewrite (for_each_emit_delivered evs (World h (enabled w) (emitted w))
                 Hall).
      eexists. split; [reflexivity|]. simpl.
      split; [done|]. split; [by rewrite length_app|].
      intros ->. apply app_nil_r.
    + intros i e x Hi Hfail Hbefore.
      rewrite (for_each_emit_failed evs (World h (enabled w) (emitted w))
                 i e x Hi Hfail Hbefore).
      eexists. split; reflexivity.
  - eexists _, _.
    split; [exact (translate_image_push_requested_run _ _ _ Hl)|].
    intros evs h Hh. unfold accept_docker_image_push_requested.
    erewrite bind_returned
      by exact (translate_image_push_requested_run _ _ _ Hl).
    erewrite bind_returned by exact (call_domain_returned _ _ _ _ _ Hh).
    change (set_objects h _) with (World h (enabled w) (emitted w)).
    split.
    + intros Hall.
      rewrite (for_each_emit_delivered evs (World h (enabled w) (emitted w))
                 Hall).
      eexists. split; [reflexivity|]. simpl.
      split; [done|]. split; [by rewrite length_app|].
      intros ->. apply app_nil_r.
    + intros i e x Hi Hfail Hbefore.
      rewrite (for_each_emit_failed evs (World h (enabled w) (emitted w))
                 i e x Hi Hfail Hbefore).
      eexists. split; reflexivity.
Qed.

(** C5.  In every state the process reaches, the wiring is the one the
    class was defined with: the listener subscribes to exactly the three
    inbound kinds (image requested, image push requested, credential
    provided), the emitter publishes exactly the three outbound kinds
    (credential requested, image available, image pushed), all six on the
    system bus.  No step adds, removes or rescopes an entry. *)
Theorem routing_table_is_fixed w :
  reachable deliver listen_DockerImageRequested
    listen_DockerImagePushRequested w →
  enabled w = enabled (boot (Event := Event)) ∧
  inbound (enabled w)
    = [ EventBinding DbusDockerImageRequested SYSTEM;
        EventBinding DbusDockerImagePushRequested SYSTEM;
        EventBinding DbusCredentialProvided SYSTEM ] ∧
  outbound (enabled w)
    = [ EventBinding DbusCredentialRequested SYSTEM;
        EventBinding DbusDockerImageAvailable SYSTEM;
        EventBinding DbusDockerImagePushed SYSTEM ] ∧
  (∀ w',
     step deliver listen_DockerImageRequested listen_DockerImagePushRequested
       w w' →
     enabled w' = enabled w).
Proof.
  intros Hw. rewrite (reachable_wiring _ Hw).
  split; [done|]. split; [reflexivity|]. split; [reflexivity|].
  intros w' Hstep. rewrite (step_keeps_wiring _ _ Hstep).
  by apply reachable_wiring.
Qed.
End Routing.

(** * The theorems at concrete inputs *)

(** C1 on the options of the push example: the two excluded keys are gone,
    the other two stay. *)
Lemma metadata_keys_are_options_minus_excluded_witness :
  objects (world_with image_push_requested_example) !! 1%positive
    = Some image_push_requested_example ∧
  ∃ result w' md,
    _build_docker_image_event_metadata 1%positive
      (world_with image_push_requested_example) = (Returned result, w') ∧
    objects w' !! result = Some md ∧
    dom md = dom image_push_requested_example
               ∖ {["image_version"; "docker_registry_url"]}.
Proof.
  assert (Hl : objects (world_with image_push_requested_example) !! 1%positive
                 = Some image_push_requested_example) by reflexivity.
  split; [exact Hl|].
  destruct (metadata_keys_are_options_minus_excluded _ _ _ Hl)
    as (result & w' & md & Hrun & Hmd & Hdom & _).
  exists result, w', md. exact (conj Hrun (conj Hmd Hdom)).
Defined.

(** C2 on the spec's example. *)
Lemma translate_image_requested_correct_witness :
  objects (world_with image_requested_example) !! 1%positive
    = Some image_requested_example ∧
  ∃ ev w',
    translate_image_requested 1%positive (world_with image_requested_example)
      = (Returned ev, w') ∧
    DockerImageRequested.image_name ev = "licdata-slim-python3.12" ∧
    DockerImageRequested.image_version ev = VStr "1.0".
Proof.
  assert (Hl : objects (world_with image_requested_example) !! 1%positive
                 = Some image_requested_example) by reflexivity.
  split; [exact Hl|].
  destruct (translate_image_requested_correct _ _ _ Hl)
    as (ev & w' & md & Hrun & _ & _ & _ & _ & _ & _ & _ & Hex).
  destruct (Hex eq_refl) as (Hname & Hversion & _).
  exists ev, w'. exact (conj Hrun (conj Hname Hversion)).
Defined.

(** C3 on the spec's example. *)
Lemma translate_image_push_requested_correct_witness :
  objects (world_with image_push_requested_example) !! 1%positive
    = Some image_push_requested_example ∧
  ∃ ev w',
    translate_image_push_requested 1%positive
      (world_with image_push_requested_example) = (Returned ev, w') ∧
    DockerImagePushRequested.image_url ev
      = "registry.example.com/licdata-slim-python3.12:1.0".
Proof.
  assert (Hl : objects (world_with image_push_requested_example) !! 1%positive
                 = Some image_push_requested_example) by reflexivity.
  split; [exact Hl|].
  destruct (translate_image_push_requested_correct _ _ _ Hl)
    as (ev & w' & md & Hrun & _ & _ & _ & _ & _ & _ & _ & _ & Hex).
  destruct (Hex eq_refl) as (Hurl & _).
  exists ev, w'. exact (conj Hrun Hurl).
Defined.

(** C4 with a handler that returns two events and one that returns none,
    over a transport that delivers. *)
Lemma results_are_published_in_order_until_a_publish_fails_witness :
  objects (world_with image_requested_example) !! 1%positive
    = Some image_requested_example ∧
  emitted (accept_docker_image_requested always_delivers two_results
             1%positive (world_with image_requested_example)).2
    = ["available"; "credential"] ∧
  emitted (accept_docker_image_push_requested always_delivers no_result
             1%positive (world_with image_requested_example)).2
    = [].
Proof.
  assert (Hl : objects (world_with image_requested_example) !! 1%positive
                 = Some image_requested_example) by reflexivity.
  split; [exact Hl|].
  destruct (results_are_published_in_order_until_a_publish_fails
              always_delivers two_results no_result _ _ _ Hl)
    as [(ev & w1 & _ & Hrequested) (ev' & w1' & _ & Hpush)].
  destruct (Hrequested ["available"; "credential"] (objects w1) eq_refl)
    as [Hdelivered _].
  destruct (Hdelivered (λ i e _, eq_refl)) as (w' & -> & Hemitted & _).
  destruct (Hpush [] (objects w1') eq_refl) as [Hdelivered' _].
  destruct (Hdelivered' (λ i e _, eq_refl)) as (w'' & -> & _ & _ & Hnone).
  split; [exact Hemitted|exact (Hnone eq_refl)].
Defined.

(** The handler returns two events, the transport fails on the first: one
    publish call is made, not two, and the acceptor raises. *)
Lemma a_failed_publish_ends_the_loop :
  (∃ ev w1,
     translate_image_requested 1%positive (world_with image_requested_example)
       = (Returned ev, w1) ∧
     two_results ev (objects w1)
       = (Returned ["available"; "credential"], objects w1)) ∧
  (accept_docker_image_requested fails_on_available two_results
     1%positive (world_with image_requested_example)).1
    = Raised (PublishError "bus down") ∧
  emitted (accept_docker_image_requested fails_on_available two_results
             1%positive (world_with image_requested_example)).2
    = ["available"] ∧
  emitted (accept_docker_image_requested fails_on_available two_results
             1%positive (world_with image_requested_example)).2
    ≠ (emitted (world_with image_requested_example)
         ++ ["available"; "credential"])%list.
Proof.
  assert (Hcalls :
    emitted (accept_docker_image_requested fails_on_available two_results
               1%positive (world_with image_requested_example)).2
    = ["available"]) by (vm_compute; reflexivity).
  split; [eexists _, _; split; reflexivity|].
  split; [vm_compute; reflexivity|].
  split; [exact Hcalls|].
  rewrite Hcalls. simpl. discriminate.
Qed.

(** C5 after one request has been decoded and served. *)
Lemma routing_table_is_fixed_witness :
  reachable always_delivers two_results no_result served_once ∧
  inbound (enabled served_once)
    = [ EventBinding DbusDockerImageRequested SYSTEM;
        EventBinding DbusDockerImagePushRequested SYSTEM;
        EventBinding DbusCredentialProvided SYSTEM ] ∧
  outbound (enabled served_once)
    = [ EventBinding DbusCredentialRequested SYSTEM;
        EventBinding DbusDockerImageAvailable SYSTEM;
        EventBinding DbusDockerImagePushed SYSTEM ].
Proof.
  assert (Hreach : reachable always_delivers two_results no_result
                     served_once).
  { eapply rtc_l; [exact (step_decode _ _ _ boot image_requested_example)|].
    eapply rtc_l; [|apply rtc_refl].
    apply (step_image_requested _ _ _ _ 1%positive (Returned ())).
    vm_compute. reflexivity. }
  split; [exact Hreach|].
  destruct (routing_table_is_fixed _ _ _ _ Hreach) as (_ & Hin & Hout & _).
  exact (conj Hin Hout).
Defined.

(** C6 on empty options: all four keys are missing. *)
Lemma translation_raises_no_error_witness :
  objects (world_with ∅) !! 1%positive = Some ∅ ∧
  (∃ ev w',
     translate_image_requested 1%positive (world_with ∅) = (Returned ev, w')) ∧
  (∃ ev w',
     translate_image_push_requested 1%positive (world_with ∅)
       = (Returned ev, w')).
Proof.
  assert (Hl : objects (world_with ∅) !! 1%positive = Some ∅) by reflexivity.
  split; [exact Hl|].
  destruct (translation_raises_no_error _ _ _ Hl)
    as [(ev & w' & Hrun & _) (ev' & w'' & Hrun' & _)].
  split; [exists ev, w'; exact Hrun|exists ev', w''; exact Hrun'].
Defined.

(** C7 on the options of the push example. *)
Lemma translating_twice_gives_equal_events_witness :
  objects (world_with image_push_requested_example) !! 1%positive
    = Some image_push_requested_example ∧
  ∃ ev1 w1 ev2 w2,
    translate_image_push_requested 1%positive
      (world_with image_push_requested_example) = (Returned ev1, w1) ∧
    translate_image_push_requested 1%positive w1 = (Returned ev2, w2) ∧
    push_requested_fields ev1 = push_requested_fields ev2 ∧
    objects w2 !! DockerImagePushRequested.metadata ev1
      = objects w2 !! DockerImagePushRequested.metadata ev2.
Proof.
  assert (Hl : objects (world_with image_push_requested_example) !! 1%positive
                 = Some image_push_requested_example) by reflexivity.
  split; [exact Hl|].
  destruct (translating_twice_gives_equal_events _ _ _ Hl)
    as [_ (ev1 & w1 & ev2 & w2 & md & Hrun1 & Hrun2 & Hfields & Hmd1 & Hmd2 & _)].
  exists ev1, w1, ev2, w2.
  exact (conj Hrun1 (conj Hrun2 (conj Hfields (eq_trans Hmd1 (eq_sym Hmd2))))).
Defined.

(** C8 on the options of the push example. *)
Lemma metadata_construction_has_no_side_effect_witness :
  objects (world_with image_push_requested_example) !! 1%positive
    = Some image_push_requested_example ∧
  ∃ result w',
    _build_docker_image_event_metadata 1%positive
      (world_with image_push_requested_example) = (Returned result, w') ∧
    objects w' !! 1%positive = Some image_push_requested_example ∧
    result ≠ 1%positive.
Proof.
  assert (Hl : objects (world_with image_push_requested_example) !! 1%positive
                 = Some image_push_requested_example) by reflexivity.
  split; [exact Hl|].
  destruct (metadata_construction_has_no_side_effect _ _ _ Hl)
    as (result & w' & Hrun & Hsame & Hne & _).
  exists result, w'. exact (conj Hrun (conj Hsame Hne)).
Defined.

(** C9 on options that carry an unrelated key only. *)
Lemma missing_options_are_formatted_as_None_witness :
  objects (world_with {[ "azure_base_version" := VStr "3.0" ]}) !! 1%positive
    = Some {[ "azure_base_version" := VStr "3.0" ]} ∧
  ∃ ev w',
    translate_image_push_requested 1%positive
      (world_with {[ "azure_base_version" := VStr "3.0" ]}) = (Returned ev, w') ∧
    DockerImagePushRequested.image_url ev = "None/licdata-None-pythonNone:None".
Proof.
  assert (Hl : objects (world_with {[ "azure_base_version" := VStr "3.0" ]})
                 !! 1%positive
               = Some {[ "azure_base_version" := VStr "3.0" ]}) by reflexivity.
  split; [exact Hl|].
  destruct (missing_options_are_formatted_as_None _ _ _ Hl eq_refl eq_refl)
    as [_ (ev & w' & Hrun & _ & Hurl)].
  exists ev, w'. split; [exact Hrun|exact (Hurl eq_refl eq_refl)].
Defined.

(** C10 on two option dictionaries that differ in ["azure_base_version"]
    only. *)
Lemma identity_fields_depend_on_four_options_witness :
  objects (world_with image_push_requested_example) !! 1%positive
    = Some image_push_requested_example ∧
  objects (world_with (<["azure_base_version" := VStr "3.0"]>
                         image_push_requested_example)) !! 1%positive
    = Some (<["azure_base_version" := VStr "3.0"]> image_push_requested_example) ∧
  ∃ ev1 w1' ev2 w2',
    translate_image_push_requested 1%positive
      (world_with image_push_requested_example) = (Returned ev1, w1') ∧
    translate_image_push_requested 1%positive
      (world_with (<["azure_base_version" := VStr "3.0"]>
                     image_push_requested_example)) = (Returned ev2, w2') ∧
    push_requested_fields ev1 = push_requested_fields ev2.
Proof.
  assert (Hl1 : objects (world_with image_push_requested_example) !! 1%positive
                  = Some image_push_requested_example) by reflexivity.
  assert (Hl2 : objects (world_with (<["azure_base_version" := VStr "3.0"]>
                           image_push_requested_example)) !! 1%positive
                  = Some (<["azure_base_version" := VStr "3.0"]>
                            image_push_requested_example)) by reflexivity.
  split; [exact Hl1|]. split; [exact Hl2|].
  destruct (identity_fields_depend_on_four_options _ _ _ _ _ _ Hl1 Hl2
              eq_refl eq_refl eq_refl eq_refl)
    as [_ (ev1 & w1' & ev2 & w2' & md1 & Hrun1 & Hrun2 & Hfields & _)].
  exists ev1, w1', ev2, w2'. exact (conj Hrun1 (conj Hrun2 Hfields)).
Defined.

(** * Further properties of the sanitizer and the translators *)

Section MoreTranslating.
Context {Event : Type}.
Implicit Types (w : world Event) (l r : loc) (d opts : dict).

(** The loop computes the options with the two keys deleted. *)
Lemma copied_delete opts :
  copied opts = delete "image_version" (delete "docker_registry_url" opts).
Proof.
  apply map_eq. intros k. rewrite copied_lookup.
  case_bool_decide as Hk; rewrite excluded_keys_spec in Hk.
  - destruct Hk as [-> | ->].
    + by rewrite lookup_delete_eq.
    + by rewrite lookup_delete_ne, lookup_delete_eq.
  - rewrite !lookup_delete_ne; [done|intros <-; tauto|intros <-; tauto].
Qed.

Lemma copied_copied opts : copied (copied opts) = copied opts.
Proof.
  apply map_eq. intros k. rewrite !copied_lookup. by case_bool_decide.
Qed.

Lemma size_delete_present (m : dict) k v :
  m !! k = Some v → size m = S (size (delete k m)).
Proof.
  intros Hk. rewrite <- (insert_delete_id m k v Hk) at 1.
  apply map_size_insert_None, lookup_delete_eq.
Qed.

Lemma copied_size opts :
  size opts
  = size (copied opts)
    + length (filter (λ k, is_Some (opts !! k)) excluded_keys).
Proof.
  rewrite copied_delete. unfold excluded_keys.
  rewrite !filter_cons, filter_nil.
  destruct (opts !! "image_version") as [v|] eqn:Hv,
    (opts !! "docker_registry_url") as [u|] eqn:Hu; simpl.
  - rewrite (size_delete_present opts _ _ Hu).
    rewrite (size_delete_present (delete "docker_registry_url" opts)
               "image_version" v) by (by rewrite lookup_delete_ne).
    lia.
  - rewrite (delete_id opts "docker_registry_url") by done.
    rewrite (size_delete_present opts _ _ Hv). lia.
  - rewrite (size_delete_present opts _ _ Hu).
    rewrite (delete_id _ "image_version") by (by rewrite lookup_delete_ne).
    lia.
  - rewrite (delete_id opts "docker_registry_url") by done.
    rewrite (delete_id opts "image_version") by done. lia.
Qed.

(** [d.get(key, None)] does not tell a key bound to [None] from a missing
    one. *)
Lemma get_or_none_insert_None opts key k :
  opts !! key = None →
  get_or_none (<[key := VNone]> opts) k = get_or_none opts k.
Proof.
  intros Hkey. unfold get_or_none. destruct (decide (key = k)) as [<-|Hne].
  - by rewrite lookup_insert_eq, Hkey.
  - by rewrite lookup_insert_ne.
Qed.

(** Sanitizing what the sanitizer returned changes nothing: the second
    result is a new dictionary with the contents of the first. *)
Theorem sanitizing_the_metadata_again_keeps_it w options opts :
  objects w !! options = Some opts →
  ∃ result1 w1 result2 w2 md,
    _build_docker_image_event_metadata options w = (Returned result1, w1) ∧
    _build_docker_image_event_metadata result1 w1 = (Returned result2, w2) ∧
    objects w2 !! result1 = Some md ∧
    objects w2 !! result2 = Some md ∧
    result1 ≠ result2.
Proof.
  intros Hl.
  set (r1 := fresh (dom (objects w))).
  set (w1 := set_objects (<[r1 := copied opts]> (objects w)) w).
  assert (Hr1 : objects w1 !! r1 = Some (copied opts))
    by (simpl; apply lookup_insert_eq).
  assert (Hne : r1 ≠ fresh (dom (objects w1))) by by eapply live_not_fresh.
  eexists r1, w1, _, _, (copied opts).
  split; [exact (build_metadata_run _ _ _ Hl)|].
  split; [exact (build_metadata_run _ _ _ Hr1)|]. simpl.
  split; [by rewrite lookup_insert_ne|].
  split; [|done]. rewrite lookup_insert_eq. by rewrite copied_copied.
Qed.

(** The metadata is the options with ["image_version"] and
    ["docker_registry_url"] deleted.  It has as many entries fewer as there
    are excluded keys among the options, and options with neither key are
    copied entry for entry. *)
Theorem metadata_drops_only_the_excluded_entries w options opts :
  objects w !! options = Some opts →
  ∃ result w' md,
    _build_docker_image_event_metadata options w = (Returned result, w') ∧
    objects w' !! result = Some md ∧
    md = delete "image_version" (delete "docker_registry_url" opts) ∧
    size opts
      = size md + length (filter (λ k, is_Some (opts !! k)) excluded_keys) ∧
    (opts !! "image_version" = None →
     opts !! "docker_registry_url" = None →
     md = opts).
Proof.
  intros Hl. eexists _, _, (copied opts).
  split; [exact (build_metadata_run _ _ _ Hl)|]. simpl.
  split; [apply lookup_insert_eq|]. split; [apply copied_delete|].
  split; [apply copied_size|]. intros Hv Hu.
  rewrite copied_delete.
  rewrite (delete_id opts "docker_registry_url") by done.
  by apply delete_id.
Qed.

(** The metadata is a copy: an assignment to a key of the options after the
    call does not show in the metadata, and an assignment to a key of the
    metadata does not show in the options. *)
Theorem metadata_does_not_follow_later_writes w options opts key v :
  objects w !! options = Some opts →
  ∃ result w1 w2 w3 md,
    _build_docker_image_event_metadata options w = (Returned result, w1) ∧
    objects w1 !! result = Some md ∧
    setitem options key v w1 = (Returned (), w2) ∧
    objects w2 !! options = Some (<[key := v]> opts) ∧
    objects w2 !! result = Some md ∧
    setitem result key v w1 = (Returned (), w3) ∧
    objects w3 !! result = Some (<[key := v]> md) ∧
    objects w3 !! options = Some opts.
Proof.
  intros Hl.
  set (r1 := fresh (dom (objects w))).
  set (w1 := set_objects (<[r1 := copied opts]> (objects w)) w).
  assert (Hne : r1 ≠ options) by (symmetry; by eapply live_not_fresh).
  assert (Hr1 : objects w1 !! r1 = Some (copied opts))
    by (simpl; apply lookup_insert_eq).
  assert (Hl1 : objects w1 !! options = Some opts)
    by (simpl; by rewrite lookup_insert_ne).
  eexists r1, w1, _, _, (copied opts).
  split; [exact (build_metadata_run _ _ _ Hl)|]. split; [exact Hr1|].
  split; [exact (setitem_live _ _ _ _ _ Hl1)|]. simpl.
  split; [apply lookup_insert_eq|].
  split; [rewrite lookup_insert_ne by done; apply lookup_insert_eq|].
  split; [exact (setitem_live _ _ _ _ _ Hr1)|]. simpl.
  split; [apply lookup_insert_eq|].
  by rewrite !lookup_insert_ne.
Qed.

(** An option given as [None] is read like a missing one: the events built
    from the options with and without the entry have the same name, version,
    URL and registry URL.  The entry itself is kept in the metadata unless
    its key is excluded. *)
Theorem an_option_set_to_None_reads_as_missing
    (w1 w2 : world Event) options1 options2 opts key :
  objects w1 !! options1 = Some opts →
  objects w2 !! options2 = Some (<[key := VNone]> opts) →
  opts !! key = None →
  (∃ ev1 w1' ev2 w2' md1 md2,
     translate_image_requested options1 w1 = (Returned ev1, w1') ∧
     translate_image_requested options2 w2 = (Returned ev2, w2') ∧
     requested_fields ev1 = requested_fields ev2 ∧
     objects w1' !! DockerImageRequested.metadata ev1 = Some md1 ∧
     objects w2' !! DockerImageRequested.metadata ev2 = Some md2 ∧
     md1 !! key = None ∧
     (key ∉ excluded_keys → md2 !! key = Some VNone)) ∧
  (∃ ev1 w1' ev2 w2' md1 md2,
     translate_image_push_requested options1 w1 = (Returned ev1, w1') ∧
     translate_image_push_requested options2 w2 = (Returned ev2, w2') ∧
     push_requested_fields ev1 = push_requested_fields ev2 ∧
     objects w1' !! DockerImagePushRequested.metadata ev1 = Some md1 ∧
     objects w2' !! DockerImagePushRequested.metadata ev2 = Some md2 ∧
     md1 !! key = None ∧
     (key ∉ excluded_keys → md2 !! key = Some VNone)).
Proof.
  intros Hl1 Hl2 Hkey.
  assert (Hmd1 : copied opts !! key = None).
  { rewrite copied_lookup. by case_bool_decide. }
  assert (Hmd2 : key ∉ excluded_keys →
                 copied (<[key := VNone]> opts) !! key = Some VNone).
  { intros Hk. rewrite copied_lookup, bool_decide_false by done.
    apply lookup_insert_eq. }
  split.
  - eexists _, _, _, _, (copied opts), (copied (<[key := VNone]> opts)).
    split; [exact (translate_image_requested_run _ _ _ Hl1)|].
    split; [exact (translate_image_requested_run _ _ _ Hl2)|].
    unfold requested_fields. simpl.
    rewrite !(get_or_none_insert_None _ _ _ Hkey).
    split; [done|]. split; [apply lookup_insert_eq|].
    split; [apply lookup_insert_eq|done].
  - eexists _, _, _, _, (copied opts), (copied (<[key := VNone]> opts)).
    split; [exact (translate_image_push_requested_run _ _ _ Hl1)|].
    split; [exact (translate_image_push_requested_run _ _ _ Hl2)|].
    unfold push_requested_fields. simpl.
    rewrite !(get_or_none_insert_None _ _ _ Hkey).
    split; [done|]. split; [apply lookup_insert_eq|].
    split; [apply lookup_insert_eq|done].
Qed.
(** In an f-string a missing option and the string ["None"] look alike. *)
Lemma py_format_insert_None_string opts key k :
  opts !! key = None →
  py_format (get_or_none (<[key := VStr "None"]> opts) k)
  = py_format (get_or_none opts k).
Proof.
  intros Hkey. unfold get_or_none. destruct (decide (key = k)) as [<-|Hne].
  - by rewrite lookup_insert_eq, Hkey.
  - by rewrite lookup_insert_ne.
Qed.

(** The derived strings do not tell a missing option from the string
    ["None"]: giving a missing option that value leaves the name and the URL
    as they were, while the event's own version (or registry URL) changes
    from [None] to the string. *)
Theorem a_missing_option_is_named_like_the_string_None
    (w1 w2 : world Event) options1 options2 opts key :
  objects w1 !! options1 = Some opts →
  objects w2 !! options2 = Some (<[key := VStr "None"]> opts) →
  opts !! key = None →
  (∃ ev1 w1' ev2 w2',
     translate_image_requested options1 w1 = (Returned ev1, w1') ∧
     translate_image_requested options2 w2 = (Returned ev2, w2') ∧
     DockerImageRequested.image_name ev1
       = DockerImageRequested.image_name ev2 ∧
     (key = "image_version" →
        DockerImageRequested.image_version ev1 = VNone ∧
        DockerImageRequested.image_version ev2 = VStr "None")) ∧
  (∃ ev1 w1' ev2 w2',
     translate_image_push_requested options1 w1 = (Returned ev1, w1') ∧
     translate_image_push_requested options2 w2 = (Returned ev2, w2') ∧
     DockerImagePushRequested.image_name ev1
       = DockerImagePushRequested.image_name ev2 ∧
     DockerImagePushRequested.image_url ev1
       = DockerImagePushRequested.image_url ev2 ∧
     (key = "docker_registry_url" →
        DockerImagePushRequested.docker_registry_url ev1 = VNone ∧
        DockerImagePushRequested.docker_registry_url ev2 = VStr "None")).
Proof.
  intros Hl1 Hl2 Hkey.
  assert (Hname : image_name_of
            (get_or_none (<[key := VStr "None"]> opts) "variant")
            (get_or_none (<[key := VStr "None"]> opts) "python_version")
          = image_name_of (get_or_none opts "variant")
                          (get_or_none opts "python_version")).
  { unfold image_name_of.
    by rewrite !(py_format_insert_None_string _ _ _ Hkey). }
  split.
  - eexists _, _, _, _.
    split; [exact (translate_image_requested_run _ _ _ Hl1)|].
    split; [exact (translate_image_requested_run _ _ _ Hl2)|]. simpl.
    split; [by rewrite Hname|]. intros ->. unfold get_or_none.
    by rewrite Hkey, lookup_insert_eq.
  - eexists _, _, _, _.
    split; [exact (translate_image_push_requested_run _ _ _ Hl1)|].
    split; [exact (translate_image_push_requested_run _ _ _ Hl2)|]. simpl.
    split; [by rewrite Hname|]. split.
    + rewrite Hname. unfold image_url_of.
      by rewrite !(py_format_insert_None_string _ _ _ Hkey).
    + intros ->. unfold get_or_none. by rewrite Hkey, lookup_insert_eq.
Qed.
End MoreTranslating.

(** * Further properties of the acceptors and the wiring *)

Section MoreRouting.
Context {Event : Type}.
Variable deliver : transport (Event := Event).
Variable listen_DockerImageRequested : handler (Event := Event) DockerImageRequested.t.
Variable listen_DockerImagePushRequested : handler (Event := Event) DockerImagePushRequested.t.
Implicit Types (w : world Event) (l r : loc) (d opts : dict).

Local Abbreviation accept_requested :=
  (accept_docker_image_requested deliver listen_DockerImageRequested).
Local Abbreviation accept_push_requested :=
  (accept_docker_image_push_requested deliver listen_DockerImagePushRequested).

Lemma call_domain_raised {A} (listen : handler A) (ev : A) w e h :
  listen ev (objects w) = (Raised e, h) →
  call_domain listen ev w = (Raised e, set_objects h w).
Proof. intros Hh. unfold call_domain. by rewrite Hh. Qed.

(** When the domain handler raises, the acceptor raises the same exception
    and publishes nothing; the metadata it built and whatever the handler
    did to the objects stay.  This holds for both acceptors. *)
Theorem a_failing_handler_fails_the_acceptor w options opts :
  objects w !! options = Some opts →
  (∃ ev w1,
     translate_image_requested options w = (Returned ev, w1) ∧
     ∀ e h,
       listen_DockerImageRequested ev (objects w1) = (Raised e, h) →
       accept_requested options w
         = (Raised e, World h (enabled w) (emitted w))) ∧
  (∃ ev w1,
     translate_image_push_requested options w = (Returned ev, w1) ∧
     ∀ e h,
       listen_DockerImagePushRequested ev (objects w1) = (Raised e, h) →
       accept_push_requested options w
         = (Raised e, World h (enabled w) (emitted w))).
Proof.
  intros Hl. split.
  - eexists _, _. split; [exact (translate_image_requested_run _ _ _ Hl)|].
    intros e h Hh. unfold accept_docker_image_requested.
    erewrite bind_returned by exact (translate_image_requested_run _ _ _ Hl).
    by erewrite bind_raised by exact (call_domain_raised _ _ _ _ _ Hh).
  - eexists _, _.
    split; [exact (translate_image_push_requested_run _ _ _ Hl)|].
    intros e h Hh. unfold accept_docker_image_push_requested.
    erewrite bind_returned
      by exact (translate_image_push_requested_run _ _ _ Hl).
    by erewrite bind_raised by exact (call_domain_raised _ _ _ _ _ Hh).
Qed.

(** In every state the process reaches, three ports are enabled: the signal
    listener, the signal emitter and the image-request CLI, the last with
    no event of its own.  The push CLI, whose decorator is commented out, is
    not.  No event class is bound twice, and none is both subscribed to and
    published. *)
Theorem enabled_ports_are_fixed w :
  reachable deliver listen_DockerImageRequested
    listen_DockerImagePushRequested w →
  (enabled w).*1
    = [ LicdataArtifactDbusSignalListener; LicdataArtifactDbusSignalEmitter;
        RequestDockerImageCli ] ∧
  events_of RequestDockerImageCli (enabled w) = [] ∧
  (RequestDockerImagePushedCli ∉ (enabled w).*1) ∧
  NoDup (binding_event_class
           <$> (inbound (enabled w) ++ outbound (enabled w))%list).
Proof.
  intros Hw. rewrite (reachable_wiring _ _ _ _ Hw).
  split; [reflexivity|]. split; [reflexivity|].
  split; apply (bool_decide_unpack _); by vm_compute.
Qed.

End MoreRouting.

(** * The further properties at concrete inputs *)

Lemma sanitizing_the_metadata_again_keeps_it_witness :
  objects (world_with image_push_requested_example) !! 1%positive
    = Some image_push_requested_example ∧
  ∃ result1 w1 result2 w2,
    _build_docker_image_event_metadata 1%positive
      (world_with image_push_requested_example) = (Returned result1, w1) ∧
    _build_docker_image_event_metadata result1 w1 = (Returned result2, w2) ∧
    objects w2 !! result1 = objects w2 !! result2.
Proof.
  assert (Hl : objects (world_with image_push_requested_example) !! 1%positive
                 = Some image_push_requested_example) by reflexivity.
  split; [exact Hl|].
  destruct (sanitizing_the_metadata_again_keeps_it _ _ _ Hl)
    as (r1 & w1 & r2 & w2 & md & Hrun1 & Hrun2 & Hmd1 & Hmd2 & _).
  exists r1, w1, r2, w2.
  exact (conj Hrun1 (conj Hrun2 (eq_trans Hmd1 (eq_sym Hmd2)))).
Defined.

Lemma metadata_drops_only_the_excluded_entries_witness :
  objects (world_with image_push_requested_example) !! 1%positive
    = Some image_push_requested_example ∧
  ∃ result w' md,
    _build_docker_image_event_metadata 1%positive
      (world_with image_push_requested_example) = (Returned result, w') ∧
    objects w' !! result = Some md ∧
    md = delete "image_version"
           (delete "docker_registry_url" image_push_requested_example).
Proof.
  assert (Hl : objects (world_with image_push_requested_example) !! 1%positive
                 = Some image_push_requested_example) by reflexivity.
  split; [exact Hl|].
  destruct (metadata_drops_only_the_excluded_entries _ _ _ Hl)
    as (result & w' & md & Hrun & Hmd & Hdel & _).
  exists result, w', md. exact (conj Hrun (conj Hmd Hdel)).
Defined.

Lemma metadata_does_not_follow_later_writes_witness :
  objects (world_with image_requested_example) !! 1%positive
    = Some image_requested_example ∧
  ∃ result w1 w2 md,
    _build_docker_image_event_metadata 1%positive
      (world_with image_requested_example) = (Returned result, w1) ∧
    objects w1 !! result = Some md ∧
    setitem 1%positive "variant" (VStr "full") w1 = (Returned (), w2) ∧
    objects w2 !! result = Some md.
Proof.
  assert (Hl : objects (world_with image_requested_example) !! 1%positive
                 = Some image_requested_example) by reflexivity.
  split; [exact Hl|].
  destruct (metadata_does_not_follow_later_writes _ _ _ "variant"
              (VStr "full") Hl)
    as (result & w1 & w2 & w3 & md & Hrun & Hmd & Hset & _ & Hsame & _).
  exists result, w1, w2, md.
  exact (conj Hrun (conj Hmd (conj Hset Hsame))).
Defined.

Lemma an_option_set_to_None_reads_as_missing_witness :
  objects (world_with image_requested_example) !! 1%positive
    = Some image_requested_example ∧
  objects (world_with (<["azure_base_version" := VNone]>
                         image_requested_example)) !! 1%positive
    = Some (<["azure_base_version" := VNone]> image_requested_example) ∧
  image_requested_example !! "azure_base_version" = None ∧
  ∃ ev1 w1' ev2 w2',
    translate_image_requested 1%positive
      (world_with image_requested_example) = (Returned ev1, w1') ∧
    translate_image_requested 1%positive
      (world_with (<["azure_base_version" := VNone]>
                     image_requested_example)) = (Returned ev2, w2') ∧
    requested_fields ev1 = requested_fields ev2.
Proof.
  assert (Hl1 : objects (world_with image_requested_example) !! 1%positive
                  = Some image_requested_example) by reflexivity.
  assert (Hl2 : objects (world_with (<["azure_base_version" := VNone]>
                           image_requested_example)) !! 1%positive
                  = Some (<["azure_base_version" := VNone]>
                            image_requested_example)) by reflexivity.
  assert (Hkey : image_requested_example !! "azure_base_version" = None)
    by reflexivity.
  split; [exact Hl1|]. split; [exact Hl2|]. split; [exact Hkey|].
  destruct (an_option_set_to_None_reads_as_missing _ _ _ _ _ _ Hl1 Hl2 Hkey)
    as [(ev1 & w1' & ev2 & w2' & md1 & md2 & Hrun1 & Hrun2 & Hfields & _) _].
  exists ev1, w1', ev2, w2'. exact (conj Hrun1 (conj Hrun2 Hfields)).
Defined.

Lemma a_missing_option_is_named_like_the_string_None_witness :
  objects (world_with image_requested_example) !! 1%positive
    = Some image_requested_example ∧
  objects (world_with (<["docker_registry_url" := VStr "None"]>
                         image_requested_example)) !! 1%positive
    = Some (<["docker_registry_url" := VStr "None"]> image_requested_example) ∧
  image_requested_example !! "docker_registry_url" = None ∧
  ∃ ev1 w1' ev2 w2',
    translate_image_push_requested 1%positive
      (world_with image_requested_example) = (Returned ev1, w1') ∧
    translate_image_push_requested 1%positive
      (world_with (<["docker_registry_url" := VStr "None"]>
                     image_requested_example)) = (Returned ev2, w2') ∧
    DockerImagePushRequested.image_url ev1
      = DockerImagePushRequested.image_url ev2.
Proof.
  assert (Hl1 : objects (world_with image_requested_example) !! 1%positive
                  = Some image_requested_example) by reflexivity.
  assert (Hl2 : objects (world_with (<["docker_registry_url" := VStr "None"]>
                           image_requested_example)) !! 1%positive
                  = Some (<["docker_registry_url" := VStr "None"]>
                            image_requested_example)) by reflexivity.
  assert (Hkey : image_requested_example !! "docker_registry_url" = None)
    by reflexivity.
  split; [exact Hl1|]. split; [exact Hl2|]. split; [exact Hkey|].
  destruct (a_missing_option_is_named_like_the_string_None
              _ _ _ _ _ _ Hl1 Hl2 Hkey)
    as [_ (ev1 & w1' & ev2 & w2' & Hrun1 & Hrun2 & _ & Hurl & _)].
  exists ev1, w1', ev2, w2'. exact (conj Hrun1 (conj Hrun2 Hurl)).
Defined.

Lemma a_failing_handler_fails_the_acceptor_witness :
  objects (world_with image_requested_example) !! 1%positive
    = Some image_requested_example ∧
  (accept_docker_image_requested always_delivers failing_requested
     1%positive (world_with image_requested_example)).1
    = Raised (HandlerError "no builder") ∧
  emitted (accept_docker_image_requested always_delivers failing_requested
             1%positive (world_with image_requested_example)).2 = [].
Proof.
  assert (Hl : objects (world_with image_requested_example) !! 1%positive
                 = Some image_requested_example) by reflexivity.
  split; [exact Hl|].
  destruct (a_failing_handler_fails_the_acceptor always_delivers
              failing_requested failing_push_requested _ _ _ Hl)
    as [(ev & w1 & _ & Hfail) _].
  rewrite (Hfail (HandlerError "no builder") (objects w1) eq_refl).
  split; reflexivity.
Defined.

Lemma enabled_ports_are_fixed_witness :
  reachable always_delivers two_results no_result served_once ∧
  (enabled served_once).*1
    = [ LicdataArtifactDbusSignalListener; LicdataArtifactDbusSignalEmitter;
        RequestDockerImageCli ].
Proof.
  assert (Hreach : reachable always_delivers two_results no_result
                     served_once).
  { eapply rtc_l; [exact (step_decode _ _ _ boot image_requested_example)|].
    eapply rtc_l; [|apply rtc_refl].
    apply (step_image_requested _ _ _ _ 1%positive (Returned ())).
    vm_compute. reflexivity. }
  split; [exact Hreach|].
  destruct (enabled_ports_are_fixed _ _ _ _ Hreach) as (Hports & _).
  exact Hports.
Defined.

